(** * Checks evaluator factory: a shallow embedding and its properties

    The development follows [js/plugins/checks/src/evaluator_factory.ts].
    JavaScript values are a small tree type whose objects are finite maps,
    asynchronous code is sequential code in a state-and-exception monad
    ([await] is monadic bind, a rejected promise is a thrown value), and the
    outside world (credentials, the HTTP client, the console, the tracing
    sink) is an explicit state that records every effect in order.

    Two components the evaluator relies on in the specification, the Schema
    Validator and the Generation Orchestrator, have no source here; they
    are modelled from the specification in modules of their own. *)

From Stdlib Require Import Ascii String.
From stdpp Require Import gmap strings list fin_maps pretty.

Set Warnings "-register-all".
Local Open Scope string_scope.

(** ** JavaScript values *)

Module JS.

(** Values of type [any].  Numbers are restricted to integers; nothing below
    computes with them. *)
Inductive value :=
| VUndefined
| VNull
| VBool (b : bool)
| VNum (n : Z)
| VStr (s : string)
| VArr (l : list value)
| VObj (m : gmap string value).

(** The property keys of the elements of an array or of the characters of a
    string: the decimal index. *)
Definition indexed {A} (f : A → value) (l : list A) : gmap string value :=
  list_to_map (imap (λ i x, (pretty i, f x)) l).

Definition char_value (c : ascii) : value := VStr (String c EmptyString).

(** The own enumerable properties a spread [...v] copies.  Primitives other
    than strings have none. *)
Definition own_properties (v : value) : gmap string value :=
  match v with
  | VObj m => m
  | VArr l => indexed id l
  | VStr s => indexed char_value (list_ascii_of_string s)
  | VUndefined | VNull | VBool _ | VNum _ => ∅
  end.

(** [{ ...target, ...src }]: the properties of [src] are set on the object
    built so far, overwriting those already present under the same key. *)
Definition object_spread (target : gmap string value) (src : value)
  : gmap string value :=
  own_properties src ∪ target.

(** [if (x)] on a value of type [boolean | undefined]. *)
Definition truthy (b : option bool) : bool :=
  match b with
  | Some true => true
  | Some false | None => false
  end.

(** Thrown values.  [Foreign cls text] is a value thrown by a collaborator
    (the auth library, the HTTP client, zod): [cls] is the name of its class
    and [text] is what [String(e)] yields.  [Error message] is
    [new Error(message)]. *)
Inductive exn :=
| Foreign (cls : string) (text : string)
| Error (message : string).

(** [String(e)], as a template literal computes it. *)
Definition toString (e : exn) : string :=
  match e with
  | Foreign _ text => text
  | Error "" => "Error"
  | Error message => "Error: " ++ message
  end.

(** The name of the class of a thrown value. *)
Definition class_of (e : exn) : string :=
  match e with
  | Foreign cls _ => cls
  | Error _ => "Error"
  end.

(** How a call ends. *)
Inductive completion (A : Type) :=
| Return (a : A)
| Throw (e : exn).
Arguments Return {A} a.
Arguments Throw {A} e.

End JS.
Export JS.

(** ** The outside world *)

(** The [body] of a request is either [JSON.stringify(v)], identified here
    with [v] (the wire text is not modelled), or a literal string. *)
Inductive Body :=
| JSON_stringify (v : value)
| Literal (s : string).

(** The argument of [client.request]. *)
Record RequestOptions := {
  url : string;
  method : string;
  body : Body;
  headers : list (string * string)
}.

(** What [client.request] resolves to; only [data] is ever read. *)
Record Response := { data : value }.

(** An authenticated client.  The outcome of a request may depend on the
    requests sent before it. *)
Record AuthClient := {
  request : list RequestOptions → RequestOptions → completion Response
}.

Record GoogleAuth := { getClient : completion AuthClient }.

(** One [console.log(label, payload)]. *)
Inductive Logged :=
| LogValue (label : string) (v : value)
| LogResponse (label : string) (r : Response).

(** The metadata handle a span's operation writes to. *)
Record SpanMetadata := {
  name : string;
  input : option value;
  output : option value
}.

Inductive SpanState :=
| success
| error (e : exn).

(** A closed span, as handed to the tracing sink. *)
Record SpanRecord := { metadata : SpanMetadata; state : SpanState }.

Record World := {
  sent : list RequestOptions;
  console : list Logged;
  spans : list SpanRecord
}.

Definition World0 : World := {| sent := []; console := []; spans := [] |}.

(** ** The monad of asynchronous code *)

(** A computation over a state [St] returns or throws, and leaves a state
    behind either way. *)
Definition M (St A : Type) : Type := St → completion A * St.

Definition ret {St A} (a : A) : M St A := λ s, (Return a, s).

Definition throw {St A} (e : exn) : M St A := λ s, (Throw e, s).

Definition bind {St A B} (m : M St A) (k : A → M St B) : M St B :=
  λ s, match m s with
       | (Return a, s') => k a s'
       | (Throw e, s') => (Throw e, s')
       end.

(** [try { m } catch (e) { h e }] *)
Definition try_catch {St A} (m : M St A) (h : exn → M St A) : M St A :=
  λ s, match m s with
       | (Return a, s') => (Return a, s')
       | (Throw e, s') => h e s'
       end.

(** A synchronous call that returns or throws. *)
Definition call {St A} (c : completion A) : M St A := λ s, (c, s).

Notation "'let*' x := m 'in' k" := (bind m (λ x, k))
  (at level 10, x name, m at level 100, k at level 200,
   format "'[v' 'let*'  x  :=  m  'in'  '/' k ']'").
Notation "m ;; k" := (bind m (λ _, k))
  (at level 100, right associativity, format "'[v' m  ;;  '/' k ']'").

(** Code that runs inside a span sees the span's metadata handle next to the
    world; code outside sees the world only. *)
Class InWorld (St : Type) := {
  the_world : St → World;
  with_world : World → St → St
}.

#[export] Instance World_InWorld : InWorld World :=
  {| the_world := λ w, w; with_world := λ w _, w |}.

#[export] Instance Span_InWorld : InWorld (SpanMetadata * World) :=
  {| the_world := snd; with_world := λ w s, (fst s, w) |}.

Definition console_log `{InWorld St} (l : Logged) : M St unit :=
  λ s, let w := the_world s in
       (Return tt,
        with_world {| sent := sent w; console := console w ++ [l];
                      spans := spans w |} s).

(** [await client.request(opts)]: the request goes out, then resolves or
    rejects. *)
Definition client_request `{InWorld St} (client : AuthClient)
    (opts : RequestOptions) : M St Response :=
  λ s, let w := the_world s in
       (request client (sent w) opts,
        with_world {| sent := sent w ++ [opts]; console := console w;
                      spans := spans w |} s).

(** [metadata.input = v] *)
Definition set_input (v : value) : M (SpanMetadata * World) unit :=
  λ '(md, w),
    (Return tt,
     ({| name := name md; input := Some v; output := output md |}, w)).

(** [metadata.output = v] *)
Definition set_output (v : value) : M (SpanMetadata * World) unit :=
  λ '(md, w),
    (Return tt,
     ({| name := name md; input := input md; output := Some v |}, w)).

Definition outcome {A} (c : completion A) : SpanState :=
  match c with
  | Return _ => success
  | Throw e => error e
  end.

(** Modelled from the spec: [runInNewSpan] of [genkit/tracing] is imported
    and not part of the sources at hand.  Following the Span Recorder of the
    specification, it hands the operation a fresh metadata handle carrying
    the span name, runs it to completion, closes the span on either exit
    path by emitting one record (the handle as the operation left it,
    together with the outcome), and passes the operation's result or failure
    on unchanged. *)
Definition runInNewSpan {A} (span_name : string)
    (fn : M (SpanMetadata * World) A) : M World A :=
  λ w,
    let '(r, (md, w')) :=
      fn ({| name := span_name; input := None; output := None |}, w) in
    (r, {| sent := sent w'; console := console w';
           spans := spans w' ++ [{| metadata := md; state := outcome r |}] |}).

(** ** The evaluator factory *)

(** A zod schema, as far as it is used: [parse] returns the typed value or
    throws. *)
Record ZodType := { parse : value → completion value }.

(** [BaseEvalDataPoint] of [genkit/evaluator]. *)
Module DataPoint.
Record t := {
  testCaseId : string;
  input : value;
  output : value;
  context : value;
  reference : value
}.
End DataPoint.

(** [Score] of [genkit/evaluator]. *)
Record Score := {
  score : value;
  details : value
}.

(** The object an evaluator's runner resolves to. *)
Module EvalResponse.
Record t := { evaluation : Score; testCaseId : string }.
End EvalResponse.

(** The argument [config] of [create].  [metric] is a member of the string
    enumeration [ChecksEvaluationMetricType]; [checksEval] is optional. *)
Record Config := {
  metric : string;
  displayName : string;
  definition : string;
  responseSchema : ZodType;
  checksEval : option bool
}.

(** What [ai.defineEvaluator] hands back. *)
Record Action := {
  action_name : string;
  action_displayName : string;
  action_definition : string;
  runner : DataPoint.t → M World EvalResponse.t
}.

(** Modelled from the spec: [defineEvaluator] of [genkit] is imported and
    not part of the sources at hand.  Following the specification's Action
    (a named unit of work with a handler), it yields the action made of the
    options and the runner it is given. *)
Definition defineEvaluator (name displayName definition : string)
    (runner : DataPoint.t → M World EvalResponse.t) : Action :=
  {| action_name := name; action_displayName := displayName;
     action_definition := definition; runner := runner |}.

Record EvaluatorFactory := {
  auth : GoogleAuth;
  location : string;
  projectId : string
}.

Definition dq : string := String (ascii_of_nat 34) EmptyString.
Definition nl : string := String (ascii_of_nat 10) EmptyString.
Definition quoted (s : string) : string := dq ++ s ++ dq.

(** The template literal sent as the body of the second request of
    [evaluateInstances], line by line. *)
Definition hardcoded_body : string :=
  "{ " ++ nl ++
  "            " ++ quoted "input" ++ ": { " ++ nl ++
  "              " ++ quoted "text_input" ++ ": { " ++ nl ++
  "                " ++ quoted "content" ++ ": "
    ++ quoted "I hate you and all people on earth" ++ " " ++ nl ++
  "              } " ++ nl ++
  "            }, " ++ nl ++
  "            " ++ quoted "policies" ++ ": { " ++ quoted "policy_type"
    ++ ": " ++ quoted "HARASSMENT" ++ " } " ++ nl ++
  "          }".

Section EvaluatorFactory.

(** [GENKIT_CLIENT_HEADER] is imported from [genkit]; its value is fixed at
    run time and plays no role below. *)
Context (GENKIT_CLIENT_HEADER : string).

(** [String.prototype.toLocaleLowerCase] belongs to the run time and
    follows its locale and the Unicode case tables; it is taken as the run
    time provides it. *)
Context (toLocaleLowerCase : string → string).

Definition checksEvalInstance (this : EvaluatorFactory)
    (partialRequest : value) (responseSchema : ZodType) : M World value :=
  console_log (LogValue "HSH::partialRequest: " partialRequest) ;;
  runInNewSpan "EvaluationService#evaluateInstances" (
    let request := VObj (object_spread ∅ partialRequest) in
    console_log (LogValue "HSH::request: " request) ;;
    set_input request ;;
    let* client := call (getClient (auth this)) in
    let url :=
      "https://checks.googleapis.com/v1alpha/aisafety:classifyContent" in
    let* response :=
      client_request client
        {| url := url;
           method := "POST";
           body := JSON_stringify request;
           headers := [("X-Goog-User-Project", "checks-api-370419");
                       ("Content-Type", "application/json")] |} in
    set_output (data response) ;;
    console_log (LogResponse "HSH::response: " response) ;;
    console_log (LogValue "HSH::response.data: " (data response)) ;;
    try_catch (call (parse responseSchema (data response)))
      (λ e, throw (Error ("Error parsing " ++ url ++ " API response: "
                            ++ toString e)))).

Definition evaluateInstances (this : EvaluatorFactory)
    (partialRequest : value) (responseSchema : ZodType) : M World value :=
  let locationName :=
    "projects/" ++ projectId this ++ "/locations/" ++ location this in
  console_log (LogValue "HSH::partialRequest: " partialRequest) ;;
  runInNewSpan "EvaluationService#evaluateInstances" (
    let request :=
      VObj (object_spread (<["location" := VStr locationName]> ∅)
              partialRequest) in
    console_log (LogValue "HSH::request: " request) ;;
    set_input request ;;
    let* client := call (getClient (auth this)) in
    let url :=
      "https://" ++ location this ++ "-aiplatform.googleapis.com/v1beta1/"
        ++ locationName ++ ":evaluateInstances" in
    let* response :=
      client_request client
        {| url := url;
           method := "POST";
           body := JSON_stringify request;
           headers := [("X-Goog-Api-Client", GENKIT_CLIENT_HEADER)] |} in
    set_output (data response) ;;
    let* checksResponse :=
      client_request client
        {| url :=
             "https://checks.googleapis.com/v1alpha/aisafety:classifyContent";
           method := "POST";
           body := Literal hardcoded_body;
           headers := [("X-Goog-User-Project", "checks-api-370419");
                       ("Content-Type", "application/json")] |} in
    console_log (LogResponse "HSH::checksResponse: " checksResponse) ;;
    console_log (LogValue "HSH::checksResponse.data: " (data checksResponse)) ;;
    try_catch (call (parse responseSchema (data response)))
      (λ e, throw (Error ("Error parsing " ++ url ++ " API response: "
                            ++ toString e)))).

(** [toRequest] and [responseHandler] are the caller's; they are taken as
    the functions their types declare.  The registry [ai] only receives the
    action and is left out. *)
Definition create (this : EvaluatorFactory) (config : Config)
    (toRequest : DataPoint.t → value) (responseHandler : value → Score)
  : Action :=
  defineEvaluator
    ("checks/" ++ toLocaleLowerCase (metric config))
    (displayName config)
    (definition config)
    (λ datapoint,
       let responseSchema := responseSchema config in
       let* response :=
         (if truthy (checksEval config)
          then checksEvalInstance this (toRequest datapoint) responseSchema
          else evaluateInstances this (toRequest datapoint) responseSchema) in
       ret {| EvalResponse.evaluation := responseHandler response;
              EvalResponse.testCaseId := DataPoint.testCaseId datapoint |}).

(** One evaluation: the runner of the action [create] defines, on one
    datapoint. *)
Definition evaluate (this : EvaluatorFactory) (config : Config)
    (toRequest : DataPoint.t → value) (responseHandler : value → Score)
    (datapoint : DataPoint.t) : M World EvalResponse.t :=
  runner (create this config toRequest responseHandler) datapoint.

End EvaluatorFactory.

(** ** The Schema Validator *)

Module SchemaValidator.

(** Modelled from the spec: the validator itself is not part of the sources
    at hand, only the declared type of a document's content parts is
    ([docs/reference/js/ai/functions/index.md]).  Following the
    specification, a shape is validated structurally and validation stops at
    the first mismatch: a missing required field, a wrong primitive type, or
    a union none of whose variants matches. *)
Inductive shape :=
| SUndefined
| SString
| SNumber
| SBoolean
| SArray (element : shape)
| SObject (fields : list (string * shape))
| SUnion (variants : list shape).

Record ValidationError := {
  path : list string;
  expected : string;
  actual : string
}.

(** [typeof], with arrays and [null] told apart. *)
Definition kind (v : value) : string :=
  match v with
  | VUndefined => "undefined"
  | VNull => "null"
  | VBool _ => "boolean"
  | VNum _ => "number"
  | VStr _ => "string"
  | VArr _ => "array"
  | VObj _ => "object"
  end.

(** [v[k]]: a field that is absent reads as [undefined]. *)
Definition field (v : value) (k : string) : value :=
  match v with
  | VObj m => default VUndefined (m !! k)
  | _ => VUndefined
  end.

(** A field is set when it is present with a value other than
    [undefined]. *)
Definition is_set (v : value) (k : string) : Prop := field v k ≠ VUndefined.

Definition mismatch (expected : string) (v : value) : ValidationError :=
  {| path := []; expected := expected; actual := kind v |}.

Definition under (k : string) (e : ValidationError) : ValidationError :=
  {| path := k :: path e; expected := expected e; actual := actual e |}.

(** Modelled from the spec: [validate(shape, value)] is a pure function that
    yields the value, now typed, or the first structural mismatch with the
    path that leads to it. *)
Fixpoint validate (s : shape) (v : value) : ValidationError + value :=
  match s with
  | SUndefined =>
      match v with VUndefined => inr v | _ => inl (mismatch "undefined" v) end
  | SString =>
      match v with VStr _ => inr v | _ => inl (mismatch "string" v) end
  | SNumber =>
      match v with VNum _ => inr v | _ => inl (mismatch "number" v) end
  | SBoolean =>
      match v with VBool _ => inr v | _ => inl (mismatch "boolean" v) end
  | SArray element =>
      match v with
      | VArr l =>
          (fix elements (i : nat) (l : list value) : ValidationError + value :=
             match l with
             | [] => inr v
             | x :: l' =>
                 match validate element x with
                 | inl e => inl (under (pretty i) e)
                 | inr _ => elements (S i) l'
                 end
             end) 0%nat l
      | _ => inl (mismatch "array" v)
      end
  | SObject fields =>
      match v with
      | VObj _ =>
          (fix members (fs : list (string * shape)) : ValidationError + value :=
             match fs with
             | [] => inr v
             | (k, s') :: fs' =>
                 match validate s' (field v k) with
                 | inl e => inl (under k e)
                 | inr _ => members fs'
                 end
             end) fields
      | _ => inl (mismatch "object" v)
      end
  | SUnion variants =>
      (fix first_match (vs : list shape) : ValidationError + value :=
         match vs with
         | [] => inl (mismatch "union" v)
         | s' :: vs' =>
             match validate s' v with
             | inr t => inr t
             | inl _ => first_match vs'
             end
         end) variants
  end.

(** The declared type of a content part: text without media, or media (a
    content type and a URL) without text. *)
Definition TextPart : shape :=
  SObject [("media", SUndefined); ("text", SString)].

Definition MediaPart : shape :=
  SObject [("media", SObject [("contentType", SString); ("url", SString)]);
           ("text", SUndefined)].

Definition Part : shape := SUnion [TextPart; MediaPart].

Definition accepts (s : shape) (v : value) : Prop :=
  ∃ t, validate s v = inr t.

Definition rejects (s : shape) (v : value) : Prop :=
  ∃ e, validate s v = inl e.

(** A value with [text] a string and [media] not set. *)
Definition text_only (v : value) : Prop :=
  (∃ s, field v "text" = VStr s) ∧ ¬ is_set v "media".

(** A value with [media] carrying a content type and a URL, and [text] not
    set. *)
Definition media_only (v : value) : Prop :=
  ¬ is_set v "text"
  ∧ ∃ contentType url,
      field (field v "media") "contentType" = VStr contentType
      ∧ field (field v "media") "url" = VStr url.

Module Sample.

Definition picture : value :=
  VObj {["contentType" := VStr "image/png";
         "url" := VStr "https://example.com/a.png"]}.

Definition text_part : value := VObj {["text" := VStr "hello"]}.
Definition media_part : value := VObj {["media" := picture]}.
Definition both : value :=
  VObj {["text" := VStr "hello"; "media" := picture]}.
Definition neither : value := VObj ∅.

End Sample.

End SchemaValidator.

(** ** The Generation Orchestrator *)

Module Orchestrator.

(** Modelled from the spec: the orchestrator is not part of the sources at
    hand; of it there is only a test that compares the streamed text with
    the text of the final response.  The definitions follow the
    specification's data model and the state machine of its section on the
    orchestrator: a content part is text, a media reference, a tool-call
    request or a tool-call response, and a message is a role with an ordered
    sequence of parts. *)
Inductive Part :=
| Text (text : string)
| Media (contentType url : string)
| ToolRequest (id name : string) (args : value)
| ToolResponse (id : string) (result : value).

Inductive Role := user | model | tool.

Record Message := { role : Role; content : list Part }.

(** An incremental unit of a streaming response: partial content parts. *)
Definition StreamChunk : Type := list Part.

Record Usage := {
  inputTokens : nat;
  outputTokens : nat;
  totalTokens : nat
}.

Definition no_usage : Usage :=
  {| inputTokens := 0; outputTokens := 0; totalTokens := 0 |}.

Definition add_usage (a b : Usage) : Usage :=
  {| inputTokens := inputTokens a + inputTokens b;
     outputTokens := outputTokens a + outputTokens b;
     totalTokens := totalTokens a + totalTokens b |}.

(** One answer of the model to a request: the chunks in the order they
    arrive, and the usage of the turn. *)
Record Turn := { chunks : list StreamChunk; turn_usage : Usage }.

(** A model with fixed behaviour: the request (the message history) decides
    the answer. *)
Definition Model : Type := list Message → completion Turn.

Definition Tools : Type := gmap string (value → completion value).

Definition Callback : Type := StreamChunk → completion unit.

Inductive Failure :=
| ModelFailure (e : exn)
| CallbackFailure (e : exn)
| ToolNotFoundError (name : string)
| ToolFailure (name : string) (e : exn)
| TurnLimitExceededError.

(** What a call that reaches [TERMINAL] returns: the assembled response,
    the history it answers, and the cumulative usage. *)
Record Final := {
  response : Message;
  history : list Message;
  usage : Usage
}.

(** The result of a call, with the chunks handed to the streaming callback
    in emission order. *)
Record Outcome := {
  result : Failure + Final;
  emitted : list StreamChunk
}.

Definition join (l : list string) : string := foldr String.append "" l.

Definition part_text (p : Part) : string :=
  match p with
  | Text text => text
  | Media _ _ | ToolRequest _ _ _ | ToolResponse _ _ => ""
  end.

Definition parts_text (ps : list Part) : string := join (part_text <$> ps).

Definition message_text (m : Message) : string := parts_text (content m).

Definition stream_text (cs : list StreamChunk) : string :=
  join (parts_text <$> cs).

(** The final aggregate is the concatenation of all chunks in emission
    order. *)
Definition assemble (cs : list StreamChunk) : Message :=
  {| role := model; content := concat cs |}.

(** [STREAMING]: chunks go to the callback strictly in order; the first
    failure of the callback stops the delivery. *)
Fixpoint deliver (cb : Callback) (cs : list StreamChunk)
  : list StreamChunk * option exn :=
  match cs with
  | [] => ([], None)
  | c :: cs' =>
      match cb c with
      | Throw e => ([c], Some e)
      | Return _ => let '(d, r) := deliver cb cs' in (c :: d, r)
      end
  end.

Definition tool_request (p : Part) : option (string * string * value) :=
  match p with
  | ToolRequest id name args => Some (id, name, args)
  | Text _ | Media _ _ | ToolResponse _ _ => None
  end.

Definition tool_requests (m : Message) : list (string * string * value) :=
  omap tool_request (content m).

(** Each request is resolved by name and invoked; its result is paired with
    the request's identifier, in the order of the requests. *)
Fixpoint invoke_tools (tools : Tools) (reqs : list (string * string * value))
  : Failure + list Part :=
  match reqs with
  | [] => inr []
  | (id, name, args) :: reqs' =>
      match tools !! name with
      | None => inl (ToolNotFoundError name)
      | Some f =>
          match f args with
          | Throw e => inl (ToolFailure name e)
          | Return r =>
              match invoke_tools tools reqs' with
              | inl e => inl e
              | inr ps => inr (ToolResponse id r :: ps)
              end
          end
      end
  end.

(** Modelled from the spec: one orchestrated call, by recursion on the
    remaining turn budget.  A turn invokes the model on the history,
    streams its chunks when a callback is registered, assembles the
    response, and either returns it (no tool-call request) or invokes the
    requested tools, appends the model message and the tool message to the
    history and takes another turn.  With the budget used up the call fails
    with [TurnLimitExceededError]. *)
Fixpoint orchestrate (model : Model) (tools : Tools) (cb : option Callback)
    (turns : nat) (h : list Message) (u : Usage) : Outcome :=
  match turns with
  | O => {| result := inl TurnLimitExceededError; emitted := [] |}
  | S turns' =>
      match model h with
      | Throw e => {| result := inl (ModelFailure e); emitted := [] |}
      | Return t =>
          let '(delivered, failed) :=
            match cb with
            | Some f => deliver f (chunks t)
            | None => ([], None)
            end in
          match failed with
          | Some e =>
              {| result := inl (CallbackFailure e); emitted := delivered |}
          | None =>
              let answer := assemble (chunks t) in
              let u' := add_usage u (turn_usage t) in
              match tool_requests answer with
              | [] =>
                  {| result :=
                       inr {| response := answer; history := h; usage := u' |};
                     emitted := delivered |}
              | reqs =>
                  match invoke_tools tools reqs with
                  | inl f => {| result := inl f; emitted := delivered |}
                  | inr answers =>
                      let o :=
                        orchestrate model tools cb turns'
                          (h ++ [answer; {| role := tool; content := answers |}])
                          u' in
                      {| result := result o;
                         emitted := delivered ++ emitted o |}
                  end
              end
          end
      end
  end.

(** A call: on the first turn the history is just the caller's prompt. *)
Definition generate (model : Model) (tools : Tools) (cb : option Callback)
    (maxTurns : nat) (prompt : Message) : Outcome :=
  orchestrate model tools cb maxTurns [prompt] no_usage.

(** A streaming callback that accepts every chunk. *)
Definition never_fails (cb : Callback) : Prop := ∀ c, cb c = Return tt.

(** The text a message contributes when the model wrote it. *)
Definition said_by_model (m : Message) : string :=
  match role m with
  | model => message_text m
  | user | tool => ""
  end.

(** The text of the model messages among [ms], in order. *)
Definition model_text (ms : list Message) : string :=
  join (said_by_model <$> ms).

(** Streamed and plain calls agree: the streamed text is the text of the
    final response of the plain call. *)
Definition modes_agree (model : Model) (tools : Tools) (maxTurns : nat)
    (prompt : Message) : Prop :=
  ∀ cb final,
    never_fails cb →
    result (generate model tools None maxTurns prompt) = inr final →
    stream_text (emitted (generate model tools (Some cb) maxTurns prompt))
    = message_text (response final).

Module Gablorken.

Definition prompt : Message :=
  {| role := user; content := [Text "what is a gablorken of 2 over 3?"] |}.

Definition usage1 : Usage :=
  {| inputTokens := 10; outputTokens := 5; totalTokens := 15 |}.

Definition call_gablorken : Part :=
  ToolRequest "call-1" "gablorken"
    (VObj {["value" := VNum 2; "over" := VNum 3]}).

(** A model that announces the tool call in words on the first turn. *)
Definition talkative : Model :=
  λ h, match h with
       | [_] =>
           Return {| chunks := [[Text "Let me "];
                                [Text "compute. "; call_gablorken]];
                     turn_usage := usage1 |}
       | _ =>
           Return {| chunks := [[Text "The answer "]; [Text "is 8"]];
                     turn_usage := usage1 |}
       end.

(** A model that requests the tool without a word. *)
Definition quiet : Model :=
  λ h, match h with
       | [_] =>
           Return {| chunks := [[call_gablorken]]; turn_usage := usage1 |}
       | _ =>
           Return {| chunks := [[Text "The answer "]; [Text "is 8"]];
                     turn_usage := usage1 |}
       end.

Definition tools : Tools := {["gablorken" := λ _, Return (VNum 8)]}.

Definition collect : Callback := λ _, Return tt.

End Gablorken.

End Orchestrator.

(** ** Vocabulary of the statements *)

(** Substring test, used to say that a failure names a URL. *)
Fixpoint contains (needle hay : string) : bool :=
  if String.prefix needle hay then true
  else match hay with
       | EmptyString => false
       | String _ hay' => contains needle hay'
       end.

Definition mentions (needle : string) (e : exn) : bool :=
  contains needle (toString e).

(** The error both methods throw when the response does not parse. *)
Definition parse_error (url : string) (cause : exn) : exn :=
  Error ("Error parsing " ++ url ++ " API response: " ++ toString cause).

Definition locationName (this : EvaluatorFactory) : string :=
  "projects/" ++ projectId this ++ "/locations/" ++ location this.

Definition classifyContent_url : string :=
  "https://checks.googleapis.com/v1alpha/aisafety:classifyContent".

Definition evaluateInstances_url (this : EvaluatorFactory) : string :=
  "https://" ++ location this ++ "-aiplatform.googleapis.com/v1beta1/"
    ++ locationName this ++ ":evaluateInstances".

Definition checks_headers : list (string * string) :=
  [("X-Goog-User-Project", "checks-api-370419");
   ("Content-Type", "application/json")].

(** The request of the content-classification strategy. *)
Definition classifyContent_request (partialRequest : value) : RequestOptions :=
  {| url := classifyContent_url;
     method := "POST";
     body := JSON_stringify (VObj (own_properties partialRequest));
     headers := checks_headers |}.

(** The first request of the evaluate-instances strategy. *)
Definition evaluateInstances_request (client_header : string)
    (this : EvaluatorFactory) (partialRequest : value) : RequestOptions :=
  {| url := evaluateInstances_url this;
     method := "POST";
     body :=
       JSON_stringify
         (VObj (own_properties partialRequest
                  ∪ {["location" := VStr (locationName this)]}));
     headers := [("X-Goog-Api-Client", client_header)] |}.

(** The second request of the evaluate-instances strategy. *)
Definition hardcoded_request : RequestOptions :=
  {| url := classifyContent_url;
     method := "POST";
     body := Literal hardcoded_body;
     headers := checks_headers |}.

(** The evaluation request of either strategy. *)
Definition evaluation_request (client_header : string)
    (this : EvaluatorFactory) (config : Config) (partialRequest : value)
  : RequestOptions :=
  if truthy (checksEval config)
  then classifyContent_request partialRequest
  else evaluateInstances_request client_header this partialRequest.

(** The requests an evaluation adds to those already sent. *)
Definition requests_of {A} (w : World) (run : completion A * World)
  : list RequestOptions :=
  drop (length (sent w)) (sent run.2).

(** The spans an evaluation closes. *)
Definition spans_of {A} (w : World) (run : completion A * World)
  : list SpanRecord :=
  drop (length (spans w)) (spans run.2).

(** The names of the spans an evaluation closes. *)
Definition span_names {A} (w : World) (run : completion A * World)
  : list string :=
  (λ s, name (metadata s)) <$> spans_of w run.

(** The method [create] selects. *)
Definition strategy (client_header : string) (this : EvaluatorFactory)
    (config : Config) : value → ZodType → M World value :=
  if truthy (checksEval config)
  then checksEvalInstance this
  else evaluateInstances client_header this.

(** The outcome of the requests that follow the evaluation request: none
    under the content-classification strategy, the hardcoded request under
    the evaluate-instances strategy. *)
Definition follow_up (config : Config) (client : AuthClient)
    (earlier : list RequestOptions) : completion unit :=
  if truthy (checksEval config) then Return tt
  else match request client earlier hardcoded_request with
       | Throw e => Throw e
       | Return _ => Return tt
       end.

(** The raw response to the request [first], when there is one. *)
Definition raw_response (this : EvaluatorFactory) (first : RequestOptions)
    (w : World) : option value :=
  match getClient (auth this) with
  | Throw _ => None
  | Return client =>
      match request client (sent w) first with
      | Throw _ => None
      | Return r => Some (data r)
      end
  end.

(** A factory whose credentials yield [client]. *)
Definition factory_of (client : AuthClient) (location projectId : string)
  : EvaluatorFactory :=
  {| auth := {| getClient := Return client |};
     location := location;
     projectId := projectId |}.

(** The console lines an evaluation writes. *)
Definition logged_of {A} (w : World) (run : completion A * World)
  : list Logged :=
  drop (length (console w)) (console run.2).

(** Values that are no objects, arrays or strings: a spread copies nothing
    from them. *)
Definition is_primitive (v : value) : bool :=
  match v with
  | VUndefined | VNull | VBool _ | VNum _ => true
  | VStr _ | VArr _ | VObj _ => false
  end.

(** ** Sample inputs *)

Module Sample.

Definition client_header : string := "genkit-node/0.9.0".

Definition lower (c : ascii) : ascii :=
  let n := nat_of_ascii c in
  if (65 <=? n)%nat && (n <=? 90)%nat then ascii_of_nat (n + 32) else c.

(** The lowering of the sample run time, on the ASCII names of the sample
    metrics: capitals become small letters. *)
Fixpoint lower_case (s : string) : string :=
  match s with
  | EmptyString => EmptyString
  | String c s' => String (lower c) (lower_case s')
  end.

(** A response shape with a required numeric [score]. *)
Definition schema : ZodType :=
  {| parse := λ v,
       match v with
       | VObj m =>
           match m !! "score" with
           | Some (VNum _) => Return v
           | _ => Throw (Foreign "ZodError" "score: Required")
           end
       | _ => Throw (Foreign "ZodError" "Expected object")
       end |}.

Definition config (metric : string) (checksEval : option bool) : Config :=
  {| metric := metric;
     displayName := "Sample metric";
     definition := "A sample metric";
     responseSchema := schema;
     checksEval := checksEval |}.

Definition toRequest (datapoint : DataPoint.t) : value :=
  VObj {["content" := DataPoint.output datapoint]}.

Definition responseHandler (response : value) : Score :=
  {| score := SchemaValidator.field response "score";
     details := SchemaValidator.field response "explanation" |}.

Definition datapoint : DataPoint.t :=
  {| DataPoint.testCaseId := "case-1";
     DataPoint.input := VStr "Say something";
     DataPoint.output := VStr "Hello";
     DataPoint.context := VUndefined;
     DataPoint.reference := VUndefined |}.

Definition good : Response :=
  {| data := VObj {["score" := VNum 1; "explanation" := VStr "fine"]} |}.

(** A response without the required [score]. *)
Definition bad : Response :=
  {| data := VObj {["explanation" := VStr "fine"]} |}.

Definition refused : exn := Foreign "GaxiosError" "socket hang up".

Definition forbidden : exn :=
  Foreign "GaxiosError" "403 Forbidden".

(** A provider that answers every request with [r]. *)
Definition answering (r : Response) : AuthClient :=
  {| request := λ _ _, Return r |}.

(** A provider that fails every request. *)
Definition failing : AuthClient := {| request := λ _ _, Throw refused |}.

(** A provider that answers the first request with [r] and then lets the
    request for the hardcoded Checks project fail. *)
Definition answering_once (r : Response) : AuthClient :=
  {| request := λ earlier _,
       match earlier with
       | [] => Return r
       | _ :: _ => Throw forbidden
       end |}.

Definition factory (client : AuthClient) : EvaluatorFactory :=
  factory_of client "us-central1" "my-project".

(** One evaluation of the sample datapoint from an untouched world. *)
Definition run (metric : string) (client : AuthClient)
    (checksEval : option bool) : completion EvalResponse.t * World :=
  evaluate client_header lower_case (factory client)
    (config metric checksEval)
    toRequest responseHandler datapoint World0.

End Sample.

(** Further sample inputs. *)
Module Cases.

Definition no_credentials : exn :=
  Foreign "Error" "Could not load the default credentials".

Definition locked_out : EvaluatorFactory :=
  {| auth := {| getClient := Throw no_credentials |};
     location := "us-central1";
     projectId := "my-project" |}.

(** A request mapping that names a location of its own. *)
Definition located (datapoint : DataPoint.t) : value :=
  VObj {["location" := VStr "projects/other/locations/europe-west1";
         "content" := DataPoint.output datapoint]}.

(** A request mapping that yields no object. *)
Definition nothing (datapoint : DataPoint.t) : value := VNull.

Definition returned : EvalResponse.t :=
  {| EvalResponse.evaluation :=
       {| score := VNum 1; details := VStr "fine" |};
     EvalResponse.testCaseId := "case-1" |}.

End Cases.


(** ** Properties of the evaluator factory *)

Ltac run :=
  unfold evaluate, create, defineEvaluator, strategy, checksEvalInstance,
    evaluateInstances, runInNewSpan, bind, try_catch, call, client_request,
    console_log, set_input, set_output, ret, throw; cbn.

Ltac names :=
  unfold evaluation_request, follow_up, raw_response,
    classifyContent_request, evaluateInstances_request, hardcoded_request,
    evaluateInstances_url, classifyContent_url, checks_headers, parse_error,
    locationName.

Lemma object_spread_empty p : object_spread ∅ p = own_properties p.
Proof. unfold object_spread. by rewrite (right_id_L ∅ (∪)). Qed.

Lemma object_spread_location p l :
  object_spread (<["location" := VStr l]> ∅) p
  = own_properties p ∪ {["location" := VStr l]}.
Proof. reflexivity. Qed.

Ltac crunch :=
  names; unfold strategy;
  try match goal with
    | |- context [truthy ?b] => destruct (truthy b) eqn:?
    end;
  run; rewrite ?object_spread_empty, ?object_spread_location;
  repeat match goal with
    | |- context [match ?c with Return _ => _ | Throw _ => _ end] =>
        destruct c eqn:?; cbn
    end;
  rewrite ?app_nil_r, <- ?app_assoc; try reflexivity.

Lemma requests_of_app {A} (w : World) (run : completion A * World) new :
  sent run.2 = (sent w ++ new)%list → requests_of w run = new.
Proof. unfold requests_of. intros ->. by rewrite drop_app_length. Qed.

Lemma spans_of_app {A} (w : World) (run : completion A * World) new :
  spans run.2 = (spans w ++ new)%list → spans_of w run = new.
Proof. unfold spans_of. intros ->. by rewrite drop_app_length. Qed.

(** What the two methods return, by cases on the outcomes of the calls
    they make. *)
Lemma checksEvalInstance_result this p schema w :
  (checksEvalInstance this p schema w).1 =
  match getClient (auth this) with
  | Throw e => Throw e
  | Return client =>
      match request client (sent w) (classifyContent_request p) with
      | Throw e => Throw e
      | Return r =>
          match parse schema (data r) with
          | Throw z => Throw (parse_error classifyContent_url z)
          | Return v => Return v
          end
      end
  end.
Proof. crunch. Qed.

Lemma evaluateInstances_result client_header this p schema w :
  (evaluateInstances client_header this p schema w).1 =
  match getClient (auth this) with
  | Throw e => Throw e
  | Return client =>
      let first := evaluateInstances_request client_header this p in
      match request client (sent w) first with
      | Throw e => Throw e
      | Return r =>
          match request client (sent w ++ [first]) hardcoded_request with
          | Throw e => Throw e
          | Return _ =>
              match parse schema (data r) with
              | Throw z => Throw (parse_error (evaluateInstances_url this) z)
              | Return v => Return v
              end
          end
      end
  end.
Proof. crunch. Qed.

Lemma checksEvalInstance_sent this p schema w :
  sent (checksEvalInstance this p schema w).2 =
  (sent w ++
   match getClient (auth this) with
   | Throw _ => []
   | Return _ => [classifyContent_request p]
   end)%list.
Proof. crunch. Qed.

Section EvaluatorFactoryProperties.

Context (client_header : string) (lower_case : string → string).
Context (this : EvaluatorFactory) (config : Config).
Context (toRequest : DataPoint.t → value) (responseHandler : value → Score).

Local Abbreviation evaluation :=
  (evaluate client_header lower_case this config toRequest responseHandler).
Local Abbreviation request_for :=
  (evaluation_request client_header this config).
Local Abbreviation method := (strategy client_header this config).

(** [create] wraps the selected method: its failure is passed on, its
    result goes through [responseHandler], and the effects are the
    method's. *)
Lemma evaluate_run datapoint w :
  evaluation datapoint w =
  let run := method (toRequest datapoint) (responseSchema config) w in
  (match run.1 with
   | Throw e => Throw e
   | Return response =>
       Return {| EvalResponse.evaluation := responseHandler response;
                 EvalResponse.testCaseId := DataPoint.testCaseId datapoint |}
   end, run.2).
Proof.
  unfold evaluate, create, defineEvaluator, strategy, bind, ret; cbn.
  destruct (truthy (checksEval config));
    match goal with |- context [?f this ?p ?s w] =>
      destruct (f this p s w) as [[v|e] w'] end; reflexivity.
Qed.

Lemma strategy_result p schema w :
  (method p schema w).1 =
  match getClient (auth this) with
  | Throw e => Throw e
  | Return client =>
      match request client (sent w) (request_for p) with
      | Throw e => Throw e
      | Return r =>
          match follow_up config client (sent w ++ [request_for p]) with
          | Throw e => Throw e
          | Return _ =>
              match parse schema (data r) with
              | Throw z => Throw (parse_error (url (request_for p)) z)
              | Return v => Return v
              end
          end
      end
  end.
Proof. crunch. Qed.

Lemma strategy_sent p schema w :
  sent (method p schema w).2 =
  (sent w ++
   match getClient (auth this) with
   | Throw _ => []
   | Return client =>
       request_for p ::
       (if truthy (checksEval config) then []
        else match request client (sent w) (request_for p) with
             | Throw _ => []
             | Return _ => [hardcoded_request]
             end)
   end)%list.
Proof. crunch. Qed.

Lemma strategy_spans p schema w :
  spans (method p schema w).2 =
  (spans w ++
   [{| metadata :=
         {| name := "EvaluationService#evaluateInstances";
            input :=
              Some (VObj (if truthy (checksEval config)
                          then own_properties p
                          else own_properties p
                                 ∪ {["location" := VStr (locationName this)]}));
            output := raw_response this (request_for p) w |};
       state := outcome (method p schema w).1 |}])%list.
Proof. crunch. Qed.

Lemma evaluate_result datapoint w :
  (evaluation datapoint w).1 =
  match (method (toRequest datapoint) (responseSchema config) w).1 with
  | Throw e => Throw e
  | Return response =>
      Return {| EvalResponse.evaluation := responseHandler response;
                EvalResponse.testCaseId := DataPoint.testCaseId datapoint |}
  end.
Proof. by rewrite evaluate_run. Qed.

Lemma evaluate_world datapoint w :
  (evaluation datapoint w).2
  = (method (toRequest datapoint) (responseSchema config) w).2.
Proof. by rewrite evaluate_run. Qed.

Lemma evaluate_requests datapoint w :
  requests_of w (evaluation datapoint w) =
  match getClient (auth this) with
  | Throw _ => []
  | Return client =>
      request_for (toRequest datapoint) ::
      (if truthy (checksEval config) then []
       else match request client (sent w) (request_for (toRequest datapoint))
            with
            | Throw _ => []
            | Return _ => [hardcoded_request]
            end)
  end.
Proof.
  apply requests_of_app. rewrite evaluate_world. apply strategy_sent.
Qed.

(** When the provider answers the evaluation request with a response of the
    declared shape, and the requests that follow it are answered too, the
    evaluation returns the handled response under the datapoint's id. *)
Lemma evaluate_round_trip datapoint w client r v :
  getClient (auth this) = Return client →
  request client (sent w) (request_for (toRequest datapoint)) = Return r →
  follow_up config client (sent w ++ [request_for (toRequest datapoint)])
    = Return tt →
  parse (responseSchema config) (data r) = Return v →
  (evaluation datapoint w).1 =
  Return {| EvalResponse.evaluation := responseHandler v;
            EvalResponse.testCaseId := DataPoint.testCaseId datapoint |}.
Proof.
  intros Hc Hr Hf Hv.
  by rewrite evaluate_result, strategy_result, Hc, Hr, Hf, Hv.
Qed.

(** C1, as the code has it: the failure of the evaluation request is passed
    on as it is, neither wrapped nor tagged.  A response that fails
    validation never yields a result; the evaluation then fails with an
    [Error] whose message is "Error parsing <url> API response: " followed
    by the validation failure, where <url> is the URL of the evaluation
    request: always under the content-classification strategy, and under
    the evaluate-instances strategy provided the hardcoded request, which
    is awaited before the response is validated, has been answered. *)
Theorem evaluate_failure_modes datapoint w client :
  getClient (auth this) = Return client →
  (∀ e, request client (sent w) (request_for (toRequest datapoint)) = Throw e →
        (evaluation datapoint w).1 = Throw e)
  ∧ (∀ r z,
       request client (sent w) (request_for (toRequest datapoint)) = Return r →
       parse (responseSchema config) (data r) = Throw z →
       (∀ res, (evaluation datapoint w).1 ≠ Return res)
       ∧ (truthy (checksEval config) = true
          ∨ (∃ r2, request client
                     (sent w ++ [request_for (toRequest datapoint)])
                     hardcoded_request = Return r2) →
          (evaluation datapoint w).1
          = Throw (Error ("Error parsing "
                            ++ url (request_for (toRequest datapoint))
                            ++ " API response: " ++ toString z)))).
Proof.
  intros Hc. split.
  - intros e He. by rewrite evaluate_result, strategy_result, Hc, He.
  - intros r z Hr Hz. rewrite evaluate_result, strategy_result, Hc, Hr, Hz.
    split.
    + intros res. by destruct (follow_up _ _ _).
    + intros Hanswered.
      assert (follow_up config client
                (sent w ++ [request_for (toRequest datapoint)]) = Return tt)
        as ->; [|done].
      unfold follow_up. destruct Hanswered as [->|[r2 ->]]; [done|].
      by destruct (truthy (checksEval config)).
Qed.

(** C4, as the code has it: the flag selects the method, and the body of
    the evaluation request is the JSON of a fresh object: the own
    properties of the partial request under the content-classification
    strategy (the partial request itself when it is a plain object), and
    those properties on top of a [location] field naming the project and
    location under the evaluate-instances strategy. *)
Theorem request_body_by_strategy datapoint w client :
  getClient (auth this) = Return client →
  let p := toRequest datapoint in
  ∃ first rest,
    requests_of w (evaluation datapoint w) = first :: rest
    ∧ (if truthy (checksEval config)
       then url first = classifyContent_url
            ∧ body first = JSON_stringify (VObj (own_properties p))
            ∧ (∀ m, p = VObj m → body first = JSON_stringify p)
       else url first = evaluateInstances_url this
            ∧ body first
              = JSON_stringify
                  (VObj (own_properties p
                           ∪ {["location" := VStr (locationName this)]}))).
Proof.
  intros Hc p. rewrite evaluate_requests, Hc. eexists _, _.
  split; [reflexivity|]. unfold evaluation_request.
  destruct (truthy (checksEval config)); cbn; [|done].
  split; [done|]. split; [done|]. intros m Hm. subst p. by rewrite Hm.
Qed.

(** C6, as the code has it: an evaluation closes exactly one span, whose
    state is the outcome of the operation and whose output is set exactly
    when the evaluation request was answered, to the raw response data:
    it is set before validation, and absent when the request or the
    credentials failed. *)
Theorem span_output_is_raw_response datapoint w :
  ∃ s,
    spans_of w (evaluation datapoint w) = [s]
    ∧ state s = outcome (evaluation datapoint w).1
    ∧ output (metadata s)
      = raw_response this (request_for (toRequest datapoint)) w.
Proof.
  eexists. split.
  - apply spans_of_app. rewrite evaluate_world. apply strategy_spans.
  - split; [|done]. rewrite evaluate_result. unfold state.
    by destruct (method _ _ _).1.
Qed.

End EvaluatorFactoryProperties.

(** C7, as the code has it: every evaluation runs under one span whose name
    is the constant "EvaluationService#evaluateInstances"; two evaluations
    of the same metric therefore share the span name, and so do evaluations
    of different metrics. *)
Theorem span_name_is_constant client_header lower_case this config toRequest
    responseHandler datapoint w this' config' toRequest' responseHandler'
    datapoint' w' :
  span_names w
    (evaluate client_header lower_case this config toRequest responseHandler
       datapoint w)
  = ["EvaluationService#evaluateInstances"]
  ∧ span_names w'
      (evaluate client_header lower_case this' config' toRequest'
         responseHandler' datapoint' w')
    = span_names w
        (evaluate client_header lower_case this config toRequest
           responseHandler datapoint w).
Proof.
  assert (∀ t c f h d x,
            span_names x (evaluate client_header lower_case t c f h d x)
            = ["EvaluationService#evaluateInstances"]) as H.
  { intros. unfold span_names.
    erewrite spans_of_app;
      [|rewrite evaluate_world; apply strategy_spans]. done. }
  by rewrite !H.
Qed.

(** C9, as the code has it: whatever response the second, hardcoded request
    gets, [evaluateInstances] ends the same way, namely as the response to
    its first request decides. *)
Theorem second_response_is_discarded client_header location projectId
    client client' p schema w r2 r2' :
  let first :=
    evaluateInstances_request client_header
      (factory_of client location projectId) p in
  request client (sent w) first = request client' (sent w) first →
  request client (sent w ++ [first]) hardcoded_request = Return r2 →
  request client' (sent w ++ [first]) hardcoded_request = Return r2' →
  (evaluateInstances client_header (factory_of client location projectId)
     p schema w).1
  = (evaluateInstances client_header (factory_of client' location projectId)
       p schema w).1.
Proof.
  intros first H1 H2 H2'. rewrite !evaluateInstances_result. cbn.
  fold first.
  change (evaluateInstances_request client_header
            (factory_of client' location projectId) p) with first.
  by rewrite <- H1, H2, H2'.
Qed.

(** C10: [checksEvalInstance] does not look at the factory's location and
    project: with the same credentials it behaves the same for any two
    choices of them, and the one request it sends (none when no client can
    be had) goes to the classifyContent URL with the hardcoded user
    project. *)
Theorem checksEvalInstance_ignores_location_and_project auth location
    projectId location' projectId' p schema w :
  let this :=
    {| auth := auth; location := location; projectId := projectId |} in
  let this' :=
    {| auth := auth; location := location'; projectId := projectId' |} in
  checksEvalInstance this p schema w = checksEvalInstance this' p schema w
  ∧ requests_of w (checksEvalInstance this p schema w) =
    match getClient auth with
    | Throw _ => []
    | Return _ =>
        [{| url :=
              "https://checks.googleapis.com/v1alpha/aisafety:classifyContent";
            method := "POST";
            body := JSON_stringify (VObj (own_properties p));
            headers := [("X-Goog-User-Project", "checks-api-370419");
                        ("Content-Type", "application/json")] |}]
    end.
Proof.
  intros this this'. split; [reflexivity|].
  apply requests_of_app. apply checksEvalInstance_sent.
Qed.

(** *** The properties at the sample inputs *)

(** C1 as stated fails: when the provider refuses the request, the
    evaluation fails with the very value the client threw, which is no
    [EvaluationRequestError] and does not name the URL. *)
Lemma request_failure_is_not_wrapped :
  ¬ ∃ err,
      (Sample.run "HARASSMENT" Sample.failing (Some true)).1 = Throw err
      ∧ (class_of err = "EvaluationRequestError"
         ∨ mentions classifyContent_url err = true).
Proof.
  intros (err & Hrun & H). vm_compute in Hrun.
  injection Hrun as <-. vm_compute in H. by destruct H.
Qed.

Lemma evaluate_failure_modes_witness :
  (Sample.run "HARASSMENT" Sample.failing (Some true)).1
  = Throw Sample.refused
  ∧ (Sample.run "HARASSMENT" (Sample.answering Sample.bad) (Some true)).1
    = Throw (Error ("Error parsing " ++ classifyContent_url
                      ++ " API response: score: Required"))
  ∧ (Sample.run "HARASSMENT" (Sample.answering Sample.bad) None).1
    = Throw (Error ("Error parsing "
                      ++ evaluateInstances_url
                           (Sample.factory (Sample.answering Sample.bad))
                      ++ " API response: score: Required")).
Proof.
  split_and!.
  - apply (proj1 (evaluate_failure_modes Sample.client_header
                    Sample.lower_case (Sample.factory Sample.failing)
                    (Sample.config "HARASSMENT" (Some true))
                    Sample.toRequest Sample.responseHandler Sample.datapoint
                    World0 Sample.failing eq_refl)).
    reflexivity.
  - apply (proj2 (evaluate_failure_modes Sample.client_header
                    Sample.lower_case
                    (Sample.factory (Sample.answering Sample.bad))
                    (Sample.config "HARASSMENT" (Some true))
                    Sample.toRequest Sample.responseHandler Sample.datapoint
                    World0 (Sample.answering Sample.bad) eq_refl)
             Sample.bad (Foreign "ZodError" "score: Required")
             eq_refl eq_refl).
    left. reflexivity.
  - apply (proj2 (evaluate_failure_modes Sample.client_header
                    Sample.lower_case
                    (Sample.factory (Sample.answering Sample.bad))
                    (Sample.config "HARASSMENT" None)
                    Sample.toRequest Sample.responseHandler Sample.datapoint
                    World0 (Sample.answering Sample.bad) eq_refl)
             Sample.bad (Foreign "ZodError" "score: Required")
             eq_refl eq_refl).
    right. exists Sample.bad. reflexivity.
Defined.

(** C2 fails under the evaluate-instances strategy: one evaluation that
    succeeds sends two requests, the evaluation request and the hardcoded
    classifyContent request. *)
Theorem evaluateInstances_sends_two_requests :
  let this := Sample.factory (Sample.answering Sample.good) in
  let run := Sample.run "HARASSMENT" (Sample.answering Sample.good) None in
  requests_of World0 run =
  [evaluateInstances_request Sample.client_header this
     (Sample.toRequest Sample.datapoint);
   hardcoded_request]
  ∧ run.1 =
    Return {| EvalResponse.evaluation :=
                {| score := VNum 1; details := VStr "fine" |};
              EvalResponse.testCaseId := "case-1" |}.
Proof. split; vm_compute; reflexivity. Qed.

(** C3 fails under the evaluate-instances strategy: the response to the
    evaluation request has the declared shape, yet the evaluation fails,
    with the failure of the hardcoded request that follows. *)
Theorem valid_response_lost_to_second_request :
  let client := Sample.answering_once Sample.good in
  let first :=
    evaluateInstances_request Sample.client_header (Sample.factory client)
      (Sample.toRequest Sample.datapoint) in
  request client [] first = Return Sample.good
  ∧ parse Sample.schema (data Sample.good) = Return (data Sample.good)
  ∧ (Sample.run "HARASSMENT" client None).1 = Throw Sample.forbidden.
Proof. split_and!; vm_compute; reflexivity. Qed.

(** C4 as stated fails: under the evaluate-instances strategy the body of
    the evaluation request is not the partial request. *)
Lemma evaluateInstances_body_is_extended :
  ¬ ∃ first rest,
      requests_of World0
        (Sample.run "HARASSMENT" (Sample.answering Sample.good) None)
      = first :: rest
      ∧ body first = JSON_stringify (Sample.toRequest Sample.datapoint).
Proof.
  intros (first & rest & Hsent & Hbody). vm_compute in Hsent.
  injection Hsent as <- _. vm_compute in Hbody. discriminate.
Qed.

Lemma request_body_by_strategy_witness :
  ∃ first rest,
    requests_of World0
      (Sample.run "HARASSMENT" (Sample.answering Sample.good) (Some true))
    = first :: rest
    ∧ body first = JSON_stringify (Sample.toRequest Sample.datapoint).
Proof.
  destruct (request_body_by_strategy Sample.client_header Sample.lower_case
              (Sample.factory (Sample.answering Sample.good))
              (Sample.config "HARASSMENT" (Some true))
              Sample.toRequest Sample.responseHandler Sample.datapoint
              World0 (Sample.answering Sample.good) eq_refl)
    as (first & rest & Hsent & _ & _ & Hbody).
  exists first, rest. split; [exact Hsent|]. by eapply Hbody.
Defined.

(** C6 as stated fails: when the response does not validate, the span of
    the failed operation carries an output. *)
Lemma failed_span_carries_output :
  ¬ ∀ s,
      s ∈ spans_of World0
            (Sample.run "HARASSMENT" (Sample.answering Sample.bad) (Some true)) →
      is_Some (output (metadata s)) → state s = success.
Proof.
  intros H.
  destruct (spans_of World0 _) as [|s l] eqn:E; vm_compute in E;
    [discriminate|].
  injection E as <- <-.
  specialize (H _ (list_elem_of_here _ _) (mk_is_Some _ _ eq_refl)).
  discriminate.
Qed.

(** C7 as stated fails: the span name does not tell two metrics apart. *)
Lemma span_name_does_not_identify_metric :
  ¬ ("HARASSMENT" ≠ "HATE_SPEECH" →
     span_names World0
       (Sample.run "HARASSMENT" (Sample.answering Sample.good) (Some true))
     ≠ span_names World0
         (Sample.run "HATE_SPEECH" (Sample.answering Sample.good) (Some true))).
Proof. intros H. by apply H. Qed.

(** C9 as stated fails: with the same response to the first request, the
    outcome of the second request decides whether [evaluateInstances]
    returns. *)
Lemma second_outcome_reaches_result :
  let p := Sample.toRequest Sample.datapoint in
  let c := Sample.answering Sample.good in
  let c' := Sample.answering_once Sample.good in
  let first :=
    evaluateInstances_request Sample.client_header (Sample.factory c) p in
  ¬ (request c [] first = request c' [] first →
     (evaluateInstances Sample.client_header (Sample.factory c)
        p Sample.schema World0).1
     = (evaluateInstances Sample.client_header (Sample.factory c')
          p Sample.schema World0).1).
Proof. intros p c c' first H. specialize (H eq_refl). discriminate. Qed.

Lemma second_response_is_discarded_witness :
  let p := Sample.toRequest Sample.datapoint in
  (evaluateInstances Sample.client_header
     (Sample.factory (Sample.answering Sample.good)) p Sample.schema World0).1
  = (evaluateInstances Sample.client_header
       (Sample.factory
          {| request := λ earlier _,
               match earlier with
               | [] => Return Sample.good
               | _ :: _ => Return Sample.bad
               end |})
       p Sample.schema World0).1.
Proof.
  intros p.
  apply (second_response_is_discarded Sample.client_header
           "us-central1" "my-project" (Sample.answering Sample.good) _
           p Sample.schema World0 Sample.good Sample.bad);
    reflexivity.
Defined.

(** ** Properties of the Schema Validator *)

Section SchemaValidatorProperties.

Import SchemaValidator.

(** What validation against the content-part shape comes to. *)
Lemma validate_Part v :
  validate Part v =
  match v with
  | VObj _ =>
      match field v "media", field v "text" with
      | VUndefined, VStr _ => inr v
      | VObj _ as media, VUndefined =>
          match field media "contentType", field media "url" with
          | VStr _, VStr _ => inr v
          | _, _ => inl (mismatch "union" v)
          end
      | _, _ => inl (mismatch "union" v)
      end
  | _ => inl (mismatch "union" v)
  end.
Proof.
  destruct v; try reflexivity.
  cbn. destruct (default VUndefined (m !! "media")) eqn:Hm;
    destruct (default VUndefined (m !! "text")) eqn:Ht; cbn; try reflexivity.
  all: destruct (default VUndefined (_ !! "contentType")); cbn; try reflexivity.
  all: destruct (default VUndefined (_ !! "url")); cbn; reflexivity.
Qed.

(** C8: a value with both [text] and [media] set, or with neither set, is
    rejected by validation against the content-part shape; a value with
    [text] a string and [media] not set, or with [media] carrying a content
    type and a URL and [text] not set, is accepted. *)
Theorem part_is_exactly_one v :
  (is_set v "text" ∧ is_set v "media"
   ∨ ¬ is_set v "text" ∧ ¬ is_set v "media" → rejects Part v)
  ∧ (text_only v ∨ media_only v → accepts Part v).
Proof.
  unfold rejects, accepts, text_only, media_only, is_set.
  rewrite validate_Part.
  destruct v as [| | | | | |m];
    try (split; [by eexists|];
         intros [[[? ?] _]|[_ (? & ? & ? & _)]]; exfalso; discriminate).
  destruct (field (VObj m) "media") as [| | | | | |media],
           (field (VObj m) "text");
    cbv zeta;
    (split;
     [ intros [[Ht Hm]|[Ht Hm]];
       first [ exfalso;
               first [congruence | apply Ht; discriminate
                     | apply Hm; discriminate]
             | by eexists ]
     | intros [[[? ?] Hm]|[Ht (? & ? & Hc & Hu)]];
       first [ exfalso;
               first [discriminate | congruence | apply Ht; discriminate
                     | apply Hm; discriminate]
             | by eexists
             | by rewrite Hc, Hu; eexists ] ]).
Qed.

Lemma part_is_exactly_one_witness :
  rejects Part Sample.both ∧ rejects Part Sample.neither
  ∧ accepts Part Sample.text_part ∧ accepts Part Sample.media_part.
Proof.
  split_and!.
  - apply (proj1 (part_is_exactly_one Sample.both)). left.
    split; vm_compute; discriminate.
  - apply (proj1 (part_is_exactly_one Sample.neither)). right.
    split; vm_compute; tauto.
  - apply (proj2 (part_is_exactly_one Sample.text_part)). left.
    split; [by eexists | vm_compute; tauto].
  - apply (proj2 (part_is_exactly_one Sample.media_part)). right.
    split; [vm_compute; tauto | by eexists _, _].
Defined.

End SchemaValidatorProperties.

(** ** Properties of the Generation Orchestrator *)

Section OrchestratorProperties.

Import Orchestrator.

Lemma append_assoc (a b c : string) : (a ++ b) ++ c = a ++ (b ++ c).
Proof.
  induction a as [|x a IH]; [done|].
  change (String x ((a ++ b) ++ c) = String x (a ++ (b ++ c))).
  by rewrite IH.
Qed.

Lemma join_app l1 l2 : join (l1 ++ l2) = join l1 ++ join l2.
Proof.
  unfold join. induction l1 as [|s l1 IH]; cbn; [done|].
  by rewrite IH, append_assoc.
Qed.

Lemma join_cons s l : join (s :: l) = s ++ join l.
Proof. reflexivity. Qed.

Lemma parts_text_app ps qs :
  parts_text (ps ++ qs) = parts_text ps ++ parts_text qs.
Proof. unfold parts_text. by rewrite fmap_app, join_app. Qed.

Lemma stream_text_app cs ds :
  stream_text (cs ++ ds) = stream_text cs ++ stream_text ds.
Proof. unfold stream_text. by rewrite fmap_app, join_app. Qed.

(** The text of the assembled message is the text of its chunks, in
    order. *)
Lemma assemble_text cs : message_text (assemble cs) = stream_text cs.
Proof.
  unfold message_text, stream_text. cbn [assemble content].
  induction cs as [|c cs IH]; [done|].
  by rewrite fmap_cons, join_cons, <- IH, <- parts_text_app.
Qed.

Lemma deliver_all cb cs :
  never_fails cb → deliver cb cs = (cs, None).
Proof.
  intros Hcb. induction cs as [|c cs IH]; cbn; [done|].
  by rewrite Hcb, IH.
Qed.

(** With a callback that never fails, a streamed call ends as the plain
    call does. *)
Lemma streaming_result model tools cb turns h u :
  never_fails cb →
  result (orchestrate model tools (Some cb) turns h u)
  = result (orchestrate model tools None turns h u).
Proof.
  intros Hcb. revert h u.
  induction turns as [|turns IH]; intros h u;
    cbn -[tool_requests assemble invoke_tools deliver]; [done|].
  destruct (model h) as [t|e]; [|done].
  rewrite (deliver_all _ _ Hcb).
  destruct (tool_requests _); [done|].
  destruct (invoke_tools _ _); [done|]. cbn [result]. apply IH.
Qed.

(** What a streamed call that reaches the end has emitted: the chunks of
    every turn, that is the text of the model messages added to the history
    followed by the text of the final response. *)
Lemma streamed_text model tools cb turns h u final :
  never_fails cb →
  result (orchestrate model tools None turns h u) = inr final →
  ∃ added,
    history final = (h ++ added)%list
    ∧ stream_text (emitted (orchestrate model tools (Some cb) turns h u))
      = model_text added ++ message_text (response final).
Proof.
  intros Hcb. revert h u.
  induction turns as [|turns IH]; intros h u;
    cbn -[tool_requests assemble invoke_tools deliver]; [done|].
  destruct (model h) as [t|e]; [|done].
  rewrite (deliver_all _ _ Hcb).
  destruct (tool_requests _) eqn:Hreq.
  - intros [= <-]. exists []. cbn [history response emitted]. split; [by rewrite app_nil_r|].
    by rewrite assemble_text.
  - destruct (invoke_tools _ _) as [f|answers]; [done|]. cbn [result emitted].
    intros Hfinal. destruct (IH _ _ Hfinal) as (added & Hh & Htext).
    exists (assemble (chunks t)
              :: {| role := tool; content := answers |} :: added).
    split; [by rewrite Hh, <- app_assoc|].
    change (model_text (assemble (chunks t) :: _ :: added))
      with (message_text (assemble (chunks t)) ++ model_text added).
    by rewrite stream_text_app, Htext, assemble_text, append_assoc.
Qed.

(** C5, as the orchestrator has it: when the callback accepts every chunk
    and the turns that requested tools carried no text (in particular when
    no tool was called), the streamed call ends with the response of the
    plain call, and the text of the chunks it emitted, in order, is the
    text of that response. *)
Theorem streamed_text_is_final_text model tools cb maxTurns prompt final :
  never_fails cb →
  result (generate model tools None maxTurns prompt) = inr final →
  model_text (tail (history final)) = "" →
  result (generate model tools (Some cb) maxTurns prompt) = inr final
  ∧ stream_text (emitted (generate model tools (Some cb) maxTurns prompt))
    = message_text (response final).
Proof.
  intros Hcb Hfinal Hquiet. unfold generate in *. split.
  - by rewrite streaming_result.
  - destruct (streamed_text _ _ _ _ _ _ _ Hcb Hfinal) as (added & Hh & ->).
    rewrite Hh in Hquiet. cbn [tail app] in Hquiet. by rewrite Hquiet.
Qed.

(** C5 as stated fails: a model that says something on the turn in which
    it requests a tool streams more text than the final response holds. *)
Lemma streamed_text_differs_with_tools :
  ¬ modes_agree Gablorken.talkative Gablorken.tools 5 Gablorken.prompt.
Proof.
  intros H.
  specialize (H Gablorken.collect _ (λ _, eq_refl) eq_refl).
  vm_compute in H. discriminate.
Qed.

Lemma streamed_text_is_final_text_witness :
  stream_text
    (emitted (generate Gablorken.quiet Gablorken.tools (Some Gablorken.collect) 5
                Gablorken.prompt))
  = "The answer is 8".
Proof.
  refine (eq_trans
            (proj2 (streamed_text_is_final_text Gablorken.quiet Gablorken.tools
                      Gablorken.collect 5 Gablorken.prompt _
                      (λ _, eq_refl) eq_refl eq_refl)) _).
  reflexivity.
Defined.

End OrchestratorProperties.

(** ** Further behaviour of the evaluator factory *)

Lemma logged_of_app {A} (w : World) (run : completion A * World) new :
  console run.2 = (console w ++ new)%list → logged_of w run = new.
Proof. unfold logged_of. intros ->. by rewrite drop_app_length. Qed.

Lemma prefix_append (a b : string) : String.prefix a (a ++ b) = true.
Proof.
  induction a as [|x a IH]; [by destruct b|].
  change (String.prefix (String x a) (String x (a ++ b)) = true).
  cbn. destruct (ascii_dec x x); [exact IH | done].
Qed.

Lemma contains_prefix (needle hay : string) :
  String.prefix needle hay = true → contains needle hay = true.
Proof. destruct hay; cbn; by intros ->. Qed.

Lemma contains_append (needle a b : string) :
  contains needle (a ++ needle ++ b) = true.
Proof.
  induction a as [|x a IH].
  - change (contains needle (needle ++ b) = true).
    apply contains_prefix, prefix_append.
  - change (contains needle (String x (a ++ needle ++ b)) = true).
    unfold contains; fold contains. rewrite IH. by case_match.
Qed.

Lemma append_nil_r (s : string) : s ++ "" = s.
Proof.
  induction s as [|x s IH]; [done|].
  change (String x (s ++ "") = String x s). by rewrite IH.
Qed.

Lemma contains_skip (needle a hay : string) :
  contains needle hay = true → contains needle (a ++ hay) = true.
Proof.
  intros H. induction a as [|x a IH]; [done|].
  change (contains needle (String x (a ++ hay)) = true).
  unfold contains; fold contains. rewrite IH. by case_match.
Qed.

Lemma contains_append_end (needle a : string) :
  contains needle (a ++ needle) = true.
Proof.
  rewrite <- (append_nil_r needle) at 2. apply contains_append.
Qed.

Lemma toString_parse_error url z :
  toString (parse_error url z)
  = "Error: Error parsing " ++ url ++ " API response: " ++ toString z.
Proof. reflexivity. Qed.

Section EvaluatorFactoryBehaviour.

Context (client_header : string) (lower_case : string → string).
Context (this : EvaluatorFactory) (config : Config).
Context (toRequest : DataPoint.t → value) (responseHandler : value → Score).

Local Abbreviation evaluation :=
  (evaluate client_header lower_case this config toRequest responseHandler).
Local Abbreviation request_for :=
  (evaluation_request client_header this config).
Local Abbreviation method := (strategy client_header this config).

(** The console after the selected method has run. *)
Lemma strategy_console p schema w :
  console (method p schema w).2 =
  (console w ++
   LogValue "HSH::partialRequest: " p ::
   LogValue "HSH::request: "
     (VObj (if truthy (checksEval config)
            then own_properties p
            else own_properties p
                   ∪ {["location" := VStr (locationName this)]})) ::
   match getClient (auth this) with
   | Throw _ => []
   | Return client =>
       match request client (sent w) (request_for p) with
       | Throw _ => []
       | Return r =>
           if truthy (checksEval config)
           then [LogResponse "HSH::response: " r;
                 LogValue "HSH::response.data: " (data r)]
           else match request client (sent w ++ [request_for p])
                        hardcoded_request with
                | Throw _ => []
                | Return r2 =>
                    [LogResponse "HSH::checksResponse: " r2;
                     LogValue "HSH::checksResponse.data: " (data r2)]
                end
       end
   end)%list.
Proof. crunch. Qed.

(** X6: what an evaluation writes to the console.  The partial request
    and the request object are always logged, before any credentials are
    asked for.  Under the content-classification strategy the response and
    its data are logged once the request is answered; under the
    evaluate-instances strategy the evaluation response is not logged, only
    the response to the hardcoded request is. *)
Theorem console_lines datapoint w :
  let p := toRequest datapoint in
  logged_of w (evaluation datapoint w) =
  LogValue "HSH::partialRequest: " p ::
  LogValue "HSH::request: "
    (VObj (if truthy (checksEval config)
           then own_properties p
           else own_properties p
                  ∪ {["location" := VStr (locationName this)]})) ::
  match getClient (auth this) with
  | Throw _ => []
  | Return client =>
      match request client (sent w) (request_for p) with
      | Throw _ => []
      | Return r =>
          if truthy (checksEval config)
          then [LogResponse "HSH::response: " r;
                LogValue "HSH::response.data: " (data r)]
          else match request client (sent w ++ [request_for p])
                       hardcoded_request with
               | Throw _ => []
               | Return r2 =>
                   [LogResponse "HSH::checksResponse: " r2;
                    LogValue "HSH::checksResponse.data: " (data r2)]
               end
      end
  end.
Proof.
  intros p. apply logged_of_app. rewrite evaluate_world.
  apply strategy_console.
Qed.


(** X2: when no client can be obtained, the evaluation fails with that
    failure, sends no request, and closes its span in state error with the
    input recorded and no output. *)
Theorem no_client_no_request datapoint w e :
  getClient (auth this) = Throw e →
  (evaluation datapoint w).1 = Throw e
  ∧ requests_of w (evaluation datapoint w) = []
  ∧ ∃ v,
      spans_of w (evaluation datapoint w)
      = [{| metadata :=
              {| name := "EvaluationService#evaluateInstances";
                 input := Some v; output := None |};
            state := error e |}].
Proof.
  intros Hc. split_and!.
  - by rewrite evaluate_result, strategy_result, Hc.
  - by rewrite evaluate_requests, Hc.
  - eexists. apply spans_of_app. rewrite evaluate_world, strategy_spans.
    rewrite strategy_result. unfold raw_response. by rewrite Hc.
Qed.

(** X3: the hardcoded classifyContent request is among the requests of an
    evaluation exactly under the evaluate-instances strategy and when the
    evaluation request was answered, whether or not the response then
    validates. *)
Theorem hardcoded_request_sent_iff datapoint w client :
  getClient (auth this) = Return client →
  hardcoded_request ∈ requests_of w (evaluation datapoint w)
  ↔ truthy (checksEval config) = false
    ∧ ∃ r, request client (sent w) (request_for (toRequest datapoint))
           = Return r.
Proof.
  intros Hc. rewrite evaluate_requests, Hc.
  assert (hardcoded_request ≠ request_for (toRequest datapoint)) as Hne.
  { unfold evaluation_request.
    destruct (truthy (checksEval config)); intros [=]. }
  destruct (truthy (checksEval config)).
  - split; [|by intros [[=] _]].
    intros [?|?%elem_of_nil]%elem_of_cons; done.
  - destruct (request client _ _) as [r|e].
    + split; [by eauto|]. intros _. apply elem_of_cons. right.
      apply list_elem_of_here.
    + split; [|by intros [_ [? [=]]]].
      intros [?|?%elem_of_nil]%elem_of_cons; done.
Qed.

(** X4: under the evaluate-instances strategy every own property of the
    partial request other than [location] is sent as it is, and the
    [location] sent is the partial request's own if it has one and the
    factory's project and location otherwise. *)
Theorem evaluateInstances_location_field datapoint w client :
  truthy (checksEval config) = false →
  getClient (auth this) = Return client →
  let p := toRequest datapoint in
  ∃ first rest m,
    requests_of w (evaluation datapoint w) = first :: rest
    ∧ body first = JSON_stringify (VObj m)
    ∧ (∀ k, k ≠ "location" → m !! k = own_properties p !! k)
    ∧ m !! "location"
      = Some (default (VStr (locationName this))
                (own_properties p !! "location")).
Proof.
  intros Hs Hc p. rewrite evaluate_requests, Hc.
  unfold evaluation_request. rewrite Hs.
  eexists _, _, _. split; [reflexivity|]. split; [reflexivity|]. split.
  - intros k Hk. destruct (own_properties p !! k) as [v|] eqn:Hv.
    + by apply lookup_union_Some_l.
    + by rewrite lookup_union_r, lookup_singleton_ne.
  - destruct (own_properties p !! "location") as [v|] eqn:Hv.
    + by apply lookup_union_Some_l.
    + by rewrite lookup_union_r, lookup_singleton_eq.
Qed.

(** X5: the one span of an evaluation always records an input, and that
    input is the object whose JSON is the body of the evaluation request,
    whenever a client is obtained and the request goes out. *)
Theorem span_input_is_request_body datapoint w :
  ∃ s v,
    spans_of w (evaluation datapoint w) = [s]
    ∧ input (metadata s) = Some v
    ∧ ∀ client,
        getClient (auth this) = Return client →
        ∃ first rest,
          requests_of w (evaluation datapoint w) = first :: rest
          ∧ body first = JSON_stringify v.
Proof.
  eexists _, _. split.
  { apply spans_of_app. rewrite evaluate_world. apply strategy_spans. }
  split; [reflexivity|]. intros client Hc.
  rewrite evaluate_requests, Hc. eexists _, _. split; [reflexivity|].
  unfold evaluation_request. by destruct (truthy (checksEval config)).
Qed.

(** X7: an evaluation returns exactly when a client is obtained, the
    evaluation request is answered, the requests that follow it are
    answered and the response validates; the result is then the handled
    validated response under the datapoint's id. *)
Theorem evaluate_returns_iff datapoint w res :
  (evaluation datapoint w).1 = Return res
  ↔ ∃ client r v,
      getClient (auth this) = Return client
      ∧ request client (sent w) (request_for (toRequest datapoint)) = Return r
      ∧ follow_up config client
          (sent w ++ [request_for (toRequest datapoint)]) = Return tt
      ∧ parse (responseSchema config) (data r) = Return v
      ∧ res = {| EvalResponse.evaluation := responseHandler v;
                 EvalResponse.testCaseId := DataPoint.testCaseId datapoint |}.
Proof.
  rewrite evaluate_result, strategy_result. split.
  - destruct (getClient (auth this)) as [client|]; [|done].
    destruct (request client _ _) as [r|] eqn:Hr; [|done].
    destruct (follow_up _ _ _) as [[]|] eqn:Hf; [|done].
    destruct (parse _ _) as [v|] eqn:Hv; [|done].
    intros [= <-]. by exists client, r, v.
  - intros (client & r & v & -> & -> & -> & -> & ->). done.
Qed.

(** X8: when an evaluation returns, its span is in state success and
    carries the raw data whose validated form was handed to
    [responseHandler]. *)
Theorem returned_score_is_of_span_output datapoint w res :
  (evaluation datapoint w).1 = Return res →
  ∃ s d v,
    spans_of w (evaluation datapoint w) = [s]
    ∧ state s = success
    ∧ output (metadata s) = Some d
    ∧ parse (responseSchema config) d = Return v
    ∧ res = {| EvalResponse.evaluation := responseHandler v;
               EvalResponse.testCaseId := DataPoint.testCaseId datapoint |}.
Proof.
  intros Hres.
  erewrite spans_of_app by (rewrite evaluate_world; apply strategy_spans).
  rewrite evaluate_result in Hres. revert Hres.
  rewrite strategy_result. unfold raw_response.
  destruct (getClient (auth this)) as [client|]; [|done].
  destruct (request client _ _) as [r|]; [|done].
  destruct (follow_up _ _ _) as [[]|]; [|done].
  destruct (parse _ _) as [v|] eqn:Hv; [|done].
  intros [= <-]. by eexists _, (data r), v.
Qed.

(** X9: under the evaluate-instances strategy, when the hardcoded request
    fails the evaluation fails with that failure whatever the evaluation
    response was, and the span is closed in state error although it carries
    the response as output. *)
Theorem follow_up_failure_wins datapoint w client r e :
  truthy (checksEval config) = false →
  getClient (auth this) = Return client →
  request client (sent w) (request_for (toRequest datapoint)) = Return r →
  request client (sent w ++ [request_for (toRequest datapoint)])
    hardcoded_request = Throw e →
  (evaluation datapoint w).1 = Throw e
  ∧ ∃ s,
      spans_of w (evaluation datapoint w) = [s]
      ∧ output (metadata s) = Some (data r)
      ∧ state s = error e.
Proof.
  intros Hs Hc Hr He.
  assert ((method (toRequest datapoint) (responseSchema config) w).1
          = Throw e) as Hm.
  { rewrite strategy_result, Hc, Hr. unfold follow_up. by rewrite Hs, He. }
  split; [by rewrite evaluate_result, Hm|].
  eexists. split.
  { apply spans_of_app. rewrite evaluate_world. apply strategy_spans. }
  cbn. unfold raw_response. by rewrite Hc, Hr, Hm.
Qed.

(** X10: the error raised for a response that does not validate is a plain
    [Error] whose text contains the URL of the evaluation request and the
    text of the validation failure. *)
Theorem parse_error_names_url_and_cause datapoint w client r z :
  getClient (auth this) = Return client →
  request client (sent w) (request_for (toRequest datapoint)) = Return r →
  follow_up config client (sent w ++ [request_for (toRequest datapoint)])
    = Return tt →
  parse (responseSchema config) (data r) = Throw z →
  ∃ err,
    (evaluation datapoint w).1 = Throw err
    ∧ class_of err = "Error"
    ∧ mentions (url (request_for (toRequest datapoint))) err = true
    ∧ mentions (toString z) err = true.
Proof.
  intros Hc Hr Hf Hz. eexists. split.
  { by rewrite evaluate_result, strategy_result, Hc, Hr, Hf, Hz. }
  split; [done|]. unfold mentions. rewrite toString_parse_error.
  split; [apply contains_append|].
  do 2 apply contains_skip. apply contains_append_end.
Qed.

(** X11: when [toRequest] yields [undefined], [null], a boolean or a
    number, nothing is thrown: the body sent is the JSON of the empty object
    under the content-classification strategy and of the object holding
    only [location] under the evaluate-instances strategy. *)
Theorem primitive_partial_request datapoint w client :
  getClient (auth this) = Return client →
  is_primitive (toRequest datapoint) = true →
  ∃ first rest,
    requests_of w (evaluation datapoint w) = first :: rest
    ∧ body first
      = JSON_stringify
          (VObj (if truthy (checksEval config) then ∅
                 else {["location" := VStr (locationName this)]})).
Proof.
  intros Hc Hp. rewrite evaluate_requests, Hc.
  eexists _, _. split; [reflexivity|]. unfold evaluation_request.
  assert (own_properties (toRequest datapoint) = ∅) as Hown.
  { by destruct (toRequest datapoint). }
  destruct (truthy (checksEval config)); cbn; rewrite Hown; [done|].
  by rewrite (left_id_L ∅ (∪)).
Qed.

End EvaluatorFactoryBehaviour.

(** X12: the URL of the evaluation request tells the strategies apart:
    whatever the factories' locations and projects, the first request of an
    evaluation under the content-classification strategy and that of one
    under the evaluate-instances strategy go to different URLs. *)
Theorem strategies_differ_by_url client_header lower_case this config
    toRequest
    responseHandler datapoint w this' config' toRequest' responseHandler'
    datapoint' w' first rest first' rest' :
  truthy (checksEval config) = true →
  truthy (checksEval config') = false →
  requests_of w
    (evaluate client_header lower_case this config toRequest responseHandler
       datapoint w)
  = first :: rest →
  requests_of w'
    (evaluate client_header lower_case this' config' toRequest'
       responseHandler' datapoint' w')
  = first' :: rest' →
  url first ≠ url first'.
Proof.
  intros Hs Hs'. rewrite !evaluate_requests.
  destruct (getClient (auth this)); [|done].
  destruct (getClient (auth this')); [|done].
  unfold evaluation_request. rewrite Hs, Hs'.
  intros [= <- _] [= <- _]. cbn. intros Hurl.
  assert (contains "-" (evaluateInstances_url this') = true) as Hdash.
  { unfold evaluateInstances_url. do 2 apply contains_skip.
    by apply contains_prefix. }
  by rewrite <- Hurl in Hdash.
Qed.

Lemma no_client_no_request_witness :
  (evaluate Sample.client_header Sample.lower_case Cases.locked_out
     (Sample.config "HARASSMENT" None) Sample.toRequest
     Sample.responseHandler Sample.datapoint World0).1
  = Throw Cases.no_credentials.
Proof.
  apply (no_client_no_request Sample.client_header Sample.lower_case Cases.locked_out
           (Sample.config "HARASSMENT" None) Sample.toRequest
           Sample.responseHandler Sample.datapoint World0
           Cases.no_credentials).
  reflexivity.
Defined.

Lemma hardcoded_request_sent_iff_witness :
  hardcoded_request
  ∈ requests_of World0
      (Sample.run "HARASSMENT" (Sample.answering Sample.bad) None).
Proof.
  apply (hardcoded_request_sent_iff Sample.client_header Sample.lower_case
           (Sample.factory (Sample.answering Sample.bad))
           (Sample.config "HARASSMENT" None) Sample.toRequest
           Sample.responseHandler Sample.datapoint World0
           (Sample.answering Sample.bad) eq_refl).
  split; [reflexivity|]. exists Sample.bad. reflexivity.
Defined.

Lemma evaluateInstances_location_field_witness :
  ∃ first rest m,
    requests_of World0
      (evaluate Sample.client_header Sample.lower_case
         (Sample.factory (Sample.answering Sample.good))
         (Sample.config "HARASSMENT" None) Cases.located
         Sample.responseHandler Sample.datapoint World0)
    = first :: rest
    ∧ body first = JSON_stringify (VObj m)
    ∧ m !! "location" = Some (VStr "projects/other/locations/europe-west1")
    ∧ m !! "content" = Some (VStr "Hello").
Proof.
  destruct (evaluateInstances_location_field Sample.client_header Sample.lower_case
              (Sample.factory (Sample.answering Sample.good))
              (Sample.config "HARASSMENT" None) Cases.located
              Sample.responseHandler Sample.datapoint World0
              (Sample.answering Sample.good) eq_refl eq_refl)
    as (first & rest & m & Hsent & Hbody & Hother & Hlocation).
  exists first, rest, m. split; [exact Hsent|]. split; [exact Hbody|].
  split.
  - rewrite Hlocation. reflexivity.
  - rewrite Hother by discriminate. reflexivity.
Defined.

Lemma returned_score_is_of_span_output_witness :
  ∃ s d v,
    spans_of World0
      (Sample.run "HARASSMENT" (Sample.answering Sample.good) (Some true))
    = [s]
    ∧ state s = success
    ∧ output (metadata s) = Some d
    ∧ parse Sample.schema d = Return v
    ∧ Cases.returned
      = {| EvalResponse.evaluation := Sample.responseHandler v;
           EvalResponse.testCaseId := "case-1" |}.
Proof.
  apply (returned_score_is_of_span_output Sample.client_header Sample.lower_case
           (Sample.factory (Sample.answering Sample.good))
           (Sample.config "HARASSMENT" (Some true)) Sample.toRequest
           Sample.responseHandler Sample.datapoint World0 Cases.returned).
  reflexivity.
Defined.

Lemma follow_up_failure_wins_witness :
  (Sample.run "HARASSMENT" (Sample.answering_once Sample.bad) None).1
  = Throw Sample.forbidden.
Proof.
  apply (follow_up_failure_wins Sample.client_header Sample.lower_case
           (Sample.factory (Sample.answering_once Sample.bad))
           (Sample.config "HARASSMENT" None) Sample.toRequest
           Sample.responseHandler Sample.datapoint World0
           (Sample.answering_once Sample.bad) Sample.bad Sample.forbidden);
    reflexivity.
Defined.

Lemma parse_error_names_url_and_cause_witness :
  ∃ err,
    (Sample.run "HARASSMENT" (Sample.answering Sample.bad) (Some true)).1
    = Throw err
    ∧ class_of err = "Error"
    ∧ mentions classifyContent_url err = true
    ∧ mentions "score: Required" err = true.
Proof.
  apply (parse_error_names_url_and_cause Sample.client_header Sample.lower_case
           (Sample.factory (Sample.answering Sample.bad))
           (Sample.config "HARASSMENT" (Some true)) Sample.toRequest
           Sample.responseHandler Sample.datapoint World0
           (Sample.answering Sample.bad) Sample.bad
           (Foreign "ZodError" "score: Required"));
    reflexivity.
Defined.

Lemma primitive_partial_request_witness :
  ∃ first rest,
    requests_of World0
      (evaluate Sample.client_header Sample.lower_case
         (Sample.factory (Sample.answering Sample.good))
         (Sample.config "HARASSMENT" (Some true)) Cases.nothing
         Sample.responseHandler Sample.datapoint World0)
    = first :: rest
    ∧ body first = JSON_stringify (VObj ∅).
Proof.
  apply (primitive_partial_request Sample.client_header Sample.lower_case
           (Sample.factory (Sample.answering Sample.good))
           (Sample.config "HARASSMENT" (Some true)) Cases.nothing
           Sample.responseHandler Sample.datapoint World0
           (Sample.answering Sample.good));
    reflexivity.
Defined.

Lemma strategies_differ_by_url_witness :
  classifyContent_url
  ≠ evaluateInstances_url (Sample.factory (Sample.answering Sample.good)).
Proof.
  apply (strategies_differ_by_url Sample.client_header Sample.lower_case
           (Sample.factory (Sample.answering Sample.good))
           (Sample.config "HARASSMENT" (Some true)) Sample.toRequest
           Sample.responseHandler Sample.datapoint World0
           (Sample.factory (Sample.answering Sample.good))
           (Sample.config "HARASSMENT" None) Sample.toRequest
           Sample.responseHandler Sample.datapoint World0
           (classifyContent_request (Sample.toRequest Sample.datapoint)) []
           (evaluateInstances_request Sample.client_header
              (Sample.factory (Sample.answering Sample.good))
              (Sample.toRequest Sample.datapoint))
           [hardcoded_request]);
    reflexivity.
Defined.
